(** * TalkTheTalk: bootstrap layer

    A shallow embedding of the two bootstrap units of the server:

    - [setupDatabase.ts]: the default export that connects mongoose to the
      configured store and registers the [connect] closure as an event
      listener on [mongoose.connection];
    - the unit declaring class [ChattyServer], which registers the Express
      middleware stack and starts the HTTP listener and the socket.io
      transport backed by two redis clients (lines 20-135 of the same
      source text).

    Third-party packages (mongoose, express, socket.io, redis, bunyan) are
    not part of the repository.  What they do is supplied from outside: the
    event loop delivers promise settlements and emitted events to the
    database unit, and an environment record tells the server unit which
    library call throws or rejects. *)

From Stdlib Require Import ZArith.
From stdpp Require Import base strings list gmap.

Set Warnings "-register-all".
Local Open Scope string_scope.
Local Open Scope list_scope.

(** ** Values shared by both units *)

(** JSON values, as passed to [res.json]. *)
Inductive Json :=
| JNull
| JBool (b : bool)
| JNum (n : Z)
| JStr (s : string)
| JObj (fields : list (string * Json)).

(** Modelled from the spec: [CustomError] is imported from
    [./shared/globals/helpers/error-handler], which is not among the
    sources.  The spec's ClassifiedError carries an integer status code, a
    human-readable message and a [serialize()] payload; the handler reads
    [error.statusCode] and calls [error.serializeError()], so these are the
    fields kept.  [serializeError] holds what the method returns. *)
Record CustomError := mkCustomError {
  statusCode : Z;
  message : string;
  serializeError : Json
}.

(** A thrown value (or a promise rejection reason).  [Classified] values
    are exactly those for which [error instanceof CustomError] holds. *)
Inductive Thrown :=
| Classified (e : CustomError)
| Unclassified (what : string).

Definition instanceofCustomError (t : Thrown) : option CustomError :=
  match t with
  | Classified e => Some e
  | Unclassified _ => None
  end.

(** bunyan severities used by the sources. *)
Inductive Level := Info | Error.

(** One call of [log.info] / [log.error]: a text, an error object, or both. *)
Record LogEntry := mkLogEntry {
  level : Level;
  text : option string;
  attached : option Thrown
}.

(** ** setupDatabase.ts *)
Module Database.

(** The part of [config] this unit reads. *)
Record Config := mkConfig { DATABASE_URL : string }.

(** The only function ever handed to [mongoose.connection.on] is the
    closure [connect]. *)
Inductive Listener := ConnectFn.

(** The Node process as far as this unit can observe or change it. *)
Record Process := mkProcess {
  attempts : list string;              (* arguments of mongoose.connect, oldest first *)
  pending : nat;                       (* connect promises not yet settled *)
  log : list LogEntry;                 (* oldest first *)
  exit_code : option Z;                (* Some c once process.exit(c) ran *)
  listeners : gmap string (list Listener)  (* mongoose.connection's listener table *)
}.

Definition boot : Process :=
  {| attempts := []; pending := 0; log := []; exit_code := None; listeners := ∅ |}.

(** The name under which line 19 registers [connect]. *)
Definition reconnect_event : string :=
  "[*] MongoDb disconnected, trying to reconnect...".

(** The name under which a mongoose connection announces that it lost the
    store; the spec calls it the externally-signaled "disconnected"
    event. *)
Definition disconnected : string := "disconnected".

Definition write_log (e : LogEntry) (p : Process) : Process :=
  {| attempts := attempts p; pending := pending p; log := log p ++ [e];
     exit_code := exit_code p; listeners := listeners p |}.

Definition process_exit (c : Z) (p : Process) : Process :=
  {| attempts := attempts p; pending := pending p; log := log p;
     exit_code := Some c; listeners := listeners p |}.

(** [connect]: the synchronous part, line 9.  The promise returned by
    [mongoose.connect] is left pending; [.then] and [.catch] run when the
    event loop settles it. *)
Definition connect (cfg : Config) (p : Process) : Process :=
  {| attempts := attempts p ++ [DATABASE_URL cfg]; pending := S (pending p);
     log := log p; exit_code := exit_code p; listeners := listeners p |}.

(** [.then] callback, lines 10-12. *)
Definition on_fulfilled (p : Process) : Process :=
  write_log (mkLogEntry Info (Some "[+] Successfully connected to database...") None) p.

(** [.catch] callback, lines 13-16. *)
Definition on_rejected (error : Thrown) (p : Process) : Process :=
  process_exit 1%Z
    (write_log (mkLogEntry Error (Some "[x] Error connecting to database") (Some error)) p).

(** [emitter.on(name, l)]: appends [l] to the listeners of [name]. *)
Definition on (name : string) (l : Listener) (p : Process) : Process :=
  {| attempts := attempts p; pending := pending p; log := log p;
     exit_code := exit_code p;
     listeners := <[name := default [] (listeners p !! name) ++ [l]]> (listeners p) |}.

(** The default export, lines 7-20. *)
Definition setupDatabase (cfg : Config) (p : Process) : Process :=
  on reconnect_event ConnectFn (connect cfg p).

Definition call (cfg : Config) (l : Listener) (p : Process) : Process :=
  match l with ConnectFn => connect cfg p end.

(** [emitter.emit(name)]: calls the listeners of [name] in registration
    order. *)
Definition emit (cfg : Config) (name : string) (p : Process) : Process :=
  foldl (fun q l => call cfg l q) p (default [] (listeners p !! name)).

(** What the event loop delivers. *)
Inductive Event :=
| Settled (outcome : option Thrown)   (* oldest pending connect: None = fulfilled *)
| Emitted (name : string).            (* mongoose.connection emits [name] *)

Definition settle (outcome : option Thrown) (p : Process) : Process :=
  match pending p with
  | O => p
  | S n =>
      let q := {| attempts := attempts p; pending := n; log := log p;
                  exit_code := exit_code p; listeners := listeners p |} in
      match outcome with
      | None => on_fulfilled q
      | Some error => on_rejected error q
      end
  end.

(** One turn of the event loop.  After [process.exit] nothing runs. *)
Definition step (cfg : Config) (p : Process) (ev : Event) : Process :=
  match exit_code p with
  | Some _ => p
  | None =>
      match ev with
      | Settled outcome => settle outcome p
      | Emitted name => emit cfg name p
      end
  end.

Definition run (cfg : Config) (evs : list Event) (p : Process) : Process :=
  foldl (step cfg) p evs.

(** Connection attempts made after the first one. *)
Definition reconnects (p : Process) : nat := length (attempts p) - 1.


(** [n] disconnect notifications. *)
Definition notifications (n : nat) : list Event := replicate n (Emitted disconnected).


Definition error_entry (error : Thrown) : LogEntry :=
  mkLogEntry Error (Some "[x] Error connecting to database") (Some error).

(** [setupDatabase] called [k] times in a row, as when the default export is
    invoked more than once. *)
Definition setups (cfg : Config) (k : nat) (p : Process) : Process :=
  Nat.iter k (setupDatabase cfg) p.

(** The delivery of a rejected connect promise. *)
Definition is_rejection (ev : Event) : bool :=
  match ev with
  | Settled (Some _) => true
  | _ => false
  end.

(** An emission under the name the listener is registered under. *)
Definition is_trigger (ev : Event) : bool :=
  match ev with
  | Emitted name => String.eqb name reconnect_event
  | Settled _ => false
  end.

Definition triggers (evs : list Event) : nat := length (List.filter is_trigger evs).

(** The process after one [setupDatabase] on a fresh process and the
    events [evs]. *)
Definition after (cfg : Config) (evs : list Event) : Process :=
  run cfg evs (setupDatabase cfg boot).

Definition is_info (e : LogEntry) : bool :=
  match level e with
  | Info => true
  | Error => false
  end.

End Database.

(** ** class ChattyServer *)
Module Server.

(** The part of [config] this unit reads. *)
Record Config := mkConfig {
  CLIENT_URL : string;
  REDIS_HOST : string;
  SECRET_KEY_ONE : string;
  SECRET_KEY_TWO : string;
  NODE_ENV : string
}.

Definition SERVER_PORT : Z := 5000%Z.

(** [HTTP_STATUS.NOT_FOUND] of the http-status-codes package. *)
Definition NOT_FOUND : Z := 404%Z.

(** *** Option objects *)

Record CookieSessionOptions := mkCookieSessionOptions {
  name : string;
  keys : list string;
  maxAge : Z;
  secure : bool
}.

(** Options understood by the cors package; socket.io hands its [cors]
    option to the same package.  A field the object literal leaves out is
    [None]. *)
Record CorsOptions := mkCorsOptions {
  origin : string;
  credentials : option bool;
  optionsSuccessStatus : option Z;
  methods : list string
}.

Record BodyOptions := mkBodyOptions {
  extended : option bool;
  limit : string
}.

(** *** Requests, replies and handlers *)

Record Request := mkRequest {
  method : string;
  originalUrl : string
}.

(** What a handler does to the response and the log. *)
Inductive Effect :=
| Log (e : LogEntry)
| Status (code : Z)           (* res.status(code) *)
| SendJson (body : Json)      (* res.json(body) *)
| Send (body : string).       (* any other way of ending the response *)

(** How a handler hands over: [next()], [next(err)] (also a throw or a
    rejected promise, which express with express-async-errors turns into
    [next(err)]), or returning without calling [next]. *)
Inductive Signal :=
| Next
| NextWith (err : Thrown)
| Return.

Definition Reply : Type := list Effect * Signal.

(** The response object as a handler finds it: whether a response has
    already been started ([res.headersSent]). *)
Record Response := mkResponse {
  headersSent : bool
}.

(** The response of a request that just came in. *)
Definition fresh : Response := {| headersSent := false |}.

(** Whether a response body was written. *)
Definition is_send (e : Effect) : bool :=
  match e with
  | SendJson _ | Send _ => true
  | _ => false
  end.

Definition responded (effs : list Effect) : bool := existsb is_send effs.

(** The response after a handler did [effs] to it. *)
Definition written (res : Response) (effs : list Effect) : Response :=
  {| headersSent := headersSent res || responded effs |}.

(** The errors Node throws when a response cannot be written: headers set
    after the response was started, and a status code that is no
    three-digit number. *)
Definition ERR_HTTP_HEADERS_SENT : Thrown := Unclassified "ERR_HTTP_HEADERS_SENT".

Definition ERR_HTTP_INVALID_STATUS_CODE : Thrown :=
  Unclassified "ERR_HTTP_INVALID_STATUS_CODE".

(** [res.status(code).json(body)] in express 4 (the version that
    express-async-errors patches): [status] stores the code; [json] sets the
    content type, which throws once the response was started, and ends the
    response, which throws for a code outside 100..999.  The result is what
    was done to the response and what was thrown, if anything. *)
Definition status_json (res : Response) (code : Z) (body : Json)
  : list Effect * option Thrown :=
  if headersSent res then ([Status code], Some ERR_HTTP_HEADERS_SENT)
  else if (100 <=? code)%Z && (code <=? 999)%Z then ([Status code; SendJson body], None)
  else ([Status code], Some ERR_HTTP_INVALID_STATUS_CODE).

(** Middleware supplied by packages, with the options they are built from. *)
Inductive ThirdParty :=
| CookieSession (o : CookieSessionOptions)
| Hpp
| Helmet
| Cors (o : CorsOptions)
| Compression
| JsonBody (o : BodyOptions)
| Urlencoded (o : BodyOptions).

(** A route as [applicationRoutes] mounts it: when it answers and what it
    does. *)
Record Route := mkRoute {
  matches : Request -> bool;
  handle : Request -> Reply
}.

(** One layer of the express stack. *)
Inductive Stage :=
| Use (m : ThirdParty)                                (* app.use(m) *)
| Mounted (r : Route)                                 (* registered by applicationRoutes *)
| All (path : string) (h : Request -> Response -> Reply)   (* app.all(path, h) *)
| UseError (h : Thrown -> Request -> Response -> Reply).   (* app.use with a 4-argument handler *)

Definition Application : Type := list Stage.

Definition use (s : Stage) (app : Application) : Application := app ++ [s].

(** *** What is outside the repository *)

Inductive Role := Pub | Sub.

(** What the packages and [./routes] do in one run of the server.  A
    [Some] in a fault field is the value the call throws, or the reason its
    promise rejects with.  [listen] is different: [httpServer.listen(5000,
    cb)] on a new server returns normally, and a failure to bind the port
    arrives in a later turn of the event loop as an 'error' event on the
    server. *)
Record Env := mkEnv {
  behave : ThirdParty -> Request -> Reply;
  applicationRoutes : list Route;
  pid : string;                                (* process.pid, printed *)
  new_http_Server : option Thrown;             (* new http.Server(app) *)
  new_Server : option Thrown;                  (* new Server(httpServer, opts) *)
  createClient : option Thrown;
  duplicate : option Thrown;
  connect : Role -> option Thrown;             (* pubClient.connect(), subClient.connect() *)
  first_settled : Role;                        (* whose promise settles first *)
  adapter : option Thrown;                     (* io.adapter(createAdapter(..)) *)
  listen : option Thrown                       (* the 'error' event after listen, if any *)
}.

(** *** Registration: lines 47-98 *)

Definition sessionOptions (cfg : Config) : CookieSessionOptions :=
  {| name := "session";
     keys := [SECRET_KEY_ONE cfg; SECRET_KEY_TWO cfg];
     maxAge := (24 * 7 * 3600000)%Z;
     secure := negb (String.eqb (NODE_ENV cfg) "development") |}.

Definition httpCors (cfg : Config) : CorsOptions :=
  {| origin := CLIENT_URL cfg;
     credentials := Some true;
     optionsSuccessStatus := Some 200%Z;
     methods := ["GET"; "POST"; "PUT"; "DELETE"; "OPTIONS"] |}.

Definition securityMiddleware (cfg : Config) (app : Application) : Application :=
  let app := use (Use (CookieSession (sessionOptions cfg))) app in
  let app := use (Use Hpp) app in
  let app := use (Use Helmet) app in
  use (Use (Cors (httpCors cfg))) app.

Definition standardMiddleware (app : Application) : Application :=
  let app := use (Use Compression) app in
  let app := use (Use (JsonBody {| extended := None; limit := "50mb" |})) app in
  use (Use (Urlencoded {| extended := Some true; limit := "50mb" |})) app.

Definition routesMiddleware (env : Env) (app : Application) : Application :=
  foldl (fun a r => use (Mounted r) a) app (applicationRoutes env).

(** Handler of [app.all('*', ..)], lines 86-88.  It never calls [next]; a
    throw inside it is passed on by express as [next(err)]. *)
Definition notFound (req : Request) (res : Response) : Reply :=
  match status_json res NOT_FOUND
          (JObj [("message", JStr (originalUrl req +:+ " not found."))]) with
  | (effs, None) => (effs, Return)
  | (effs, Some thrown) => (effs, NextWith thrown)
  end.

(** The 4-argument handler, lines 91-97.  When line 94 throws, line 96 is
    not reached and express passes the thrown value on as [next(err)]. *)
Definition errorHandler (error : Thrown) (req : Request) (res : Response) : Reply :=
  let logged := [Log (mkLogEntry Error None (Some error))] in
  match instanceofCustomError error with
  | Some ce =>
      match status_json res (statusCode ce) (serializeError ce) with
      | (effs, None) => (logged ++ effs, Next)
      | (effs, Some thrown) => (logged ++ effs, NextWith thrown)
      end
  | None => (logged, Next)
  end.

Definition globalErrorHandler (app : Application) : Application :=
  let app := use (All "*" notFound) app in
  use (UseError errorHandler) app.

(** *** Dispatch of one request through the stack *)

(** Express path patterns: ["*"] matches every url; the sources use no
    other pattern, which is compared literally here. *)
Definition path_matches (pattern : string) (req : Request) : bool :=
  if String.eqb pattern "*" then true else String.eqb pattern (originalUrl req).

(** Whether a layer takes the request, given the error (if any) in flight:
    ordinary layers are skipped while an error is in flight, error layers
    are skipped while none is. *)
Definition invoke (env : Env) (s : Stage) (err : option Thrown) (req : Request)
    (res : Response) : option Reply :=
  match err, s with
  | None, Use m => Some (behave env m req)
  | None, Mounted r => if matches r req then Some (handle r req) else None
  | None, All path h => if path_matches path req then Some (h req res) else None
  | None, UseError _ => None
  | Some e, UseError h => Some (h e req res)
  | Some _, _ => None
  end.

(** How the walk over the stack ended: a layer returned without calling
    [next], or the stack ran out (with or without an error in flight). *)
Inductive Final :=
| Stopped
| FellThrough (err : option Thrown).

Record Outcome := mkOutcome {
  ran : list Stage;          (* layers that were invoked, in order *)
  effects : list Effect;
  final : Final
}.

Definition prepend (s : Stage) (effs : list Effect) (o : Outcome) : Outcome :=
  {| ran := s :: ran o; effects := effs ++ effects o; final := final o |}.

(** The walk of one request over the stack, from the response state [res]
    the first layer finds. *)
Fixpoint dispatch (env : Env) (stack : list Stage) (err : option Thrown) (req : Request)
    (res : Response) : Outcome :=
  match stack with
  | [] => {| ran := []; effects := []; final := FellThrough err |}
  | s :: rest =>
      match invoke env s err req res with
      | None => dispatch env rest err req res
      | Some (effs, Return) => {| ran := [s]; effects := effs; final := Stopped |}
      | Some (effs, Next) =>
          prepend s effs (dispatch env rest None req (written res effs))
      | Some (effs, NextWith e) =>
          prepend s effs (dispatch env rest (Some e) req (written res effs))
      end
  end.

(** *** Start-up: lines 100-134 *)

(** What start-up does to the outside world, in order. *)
Inductive Act :=
| Logged (e : LogEntry)
| NewHttpServer                       (* new http.Server(app) *)
| NewServer (cors : CorsOptions)      (* new Server(httpServer, {cors}) *)
| CreateClient (url : string)         (* createClient({url}) *)
| Duplicate                           (* pubClient.duplicate() *)
| ConnectCalled (r : Role)            (* r's connect() called, its promise pending *)
| Ready (r : Role)                    (* r's connect promise fulfilled *)
| Failed (r : Role) (e : Thrown)      (* r's connect promise rejected *)
| AdapterInstalled                    (* io.adapter(createAdapter(pub, sub)) *)
| Listen (port : Z)                   (* httpServer.listen(port, ..) *)
| Exit (code : Z)                     (* process.exit(code) *)
| Uncaught (e : Thrown).              (* an 'error' event nobody listens to: Node
                                         raises it as an uncaught exception *)

(** Code that appends to the trace and either returns a value or throws
    (for an async function: fulfils or rejects its promise). *)
Definition M (A : Type) : Type := list Act -> list Act * (Thrown + A).

Definition ret {A} (a : A) : M A := fun tr => (tr, inr a).

Definition throw {A} (e : Thrown) : M A := fun tr => (tr, inl e).

Definition bind {A B} (m : M A) (k : A -> M B) : M B :=
  fun tr =>
    match m tr with
    | (tr', inl e) => (tr', inl e)
    | (tr', inr a) => k a tr'
    end.

Definition try_catch {A} (body : M A) (handler : Thrown -> M A) : M A :=
  fun tr =>
    match body tr with
    | (tr', inl e) => handler e tr'
    | (tr', inr a) => (tr', inr a)
    end.

Definition act (a : Act) : M unit := fun tr => (tr ++ [a], inr tt).

Notation "m1 *> m2" := (bind m1 (fun _ => m2))
  (at level 100, m2 at level 200, right associativity).

(** A call into a package: recorded, then it throws if the environment
    says so. *)
Definition extern (a : Act) (fault : option Thrown) : M unit :=
  act a *>
  match fault with
  | Some e => throw e
  | None => ret tt
  end.

Definition other (r : Role) : Role :=
  match r with Pub => Sub | Sub => Pub end.

(** The moment one connect promise settles. *)
Definition settled (env : Env) (r : Role) : Act :=
  match connect env r with
  | None => Ready r
  | Some e => Failed r e
  end.

(** [await Promise.all([p, s])]: resumes once both promises are fulfilled,
    throws the reason of the first one that rejects. *)
Definition await_all (env : Env) : M unit :=
  let r1 := first_settled env in
  let r2 := other r1 in
  act (settled env r1) *>
  match connect env r1 with
  | Some e => throw e
  | None =>
      act (settled env r2) *>
      match connect env r2 with
      | Some e => throw e
      | None => ret tt
      end
  end.

Definition socketCors (cfg : Config) : CorsOptions :=
  {| origin := CLIENT_URL cfg;
     credentials := None;
     optionsSuccessStatus := None;
     methods := ["GET"; "POST"; "PUT"; "DELETE"; "OPTIONS"] |}.

(** Lines 111-123. *)
Definition createSocketIO (cfg : Config) (env : Env) : M unit :=
  extern (NewServer (socketCors cfg)) (new_Server env) *>
  extern (CreateClient (REDIS_HOST cfg)) (createClient env) *>
  extern Duplicate (duplicate env) *>
  act (ConnectCalled Pub) *>
  act (ConnectCalled Sub) *>
  await_all env *>
  extern AdapterInstalled (adapter env) *>
  ret tt.

(** Lines 124-129, the synchronous part: [listen] on a new server with a
    fixed, valid port registers the callback and returns. *)
Definition startHttpServer (env : Env) : M unit :=
  act (Logged (mkLogEntry Info (Some ("Server has started with process " +:+ pid env)) None)) *>
  act (Listen SERVER_PORT).

(** Lines 126-128, a later turn of the event loop: either the port is bound
    and the callback logs - the text is the template of line 127 with
    [SERVER_PORT] printed - or binding failed and the server emits 'error'.
    The unit registers no listener for 'error' on the server. *)
Definition bound (env : Env) : list Act :=
  match listen env with
  | None => [Logged (mkLogEntry Info (Some "[+] Server running on port 5000") None)]
  | Some e => [Uncaught e]
  end.

Definition is_listen (a : Act) : bool :=
  match a with Listen _ => true | _ => false end.

(** Lines 132-134: empty body. *)
Definition socketIOConnections : M unit := ret tt.

(** Lines 100-109. *)
Definition startServer (cfg : Config) (env : Env) : M unit :=
  try_catch
    (extern NewHttpServer (new_http_Server env) *>
     createSocketIO cfg env *>
     startHttpServer env *>
     socketIOConnections)
    (fun err => act (Logged (mkLogEntry Error None (Some err)))).

(** What [start] leaves behind: the stack, the trace of start-up, the
    rejection of the promise of [startServer], which [start] drops, and
    what the event loop does later because of start-up. *)
Record Started := mkStarted {
  app_of : Application;
  trace : list Act;
  rejected : option Thrown;
  aftermath : list Act
}.

(** Lines 47-53. *)
Definition start (cfg : Config) (env : Env) (app : Application) : Started :=
  let app := securityMiddleware cfg app in
  let app := standardMiddleware app in
  let app := routesMiddleware env app in
  let app := globalErrorHandler app in
  let (tr, r) := startServer cfg env [] in
  {| app_of := app; trace := tr;
     rejected := match r with inl e => Some e | inr _ => None end;
     aftermath := if existsb is_listen tr then bound env else [] |}.

(** *** Vocabulary of the specification *)

(** The phases the specification sorts the stages into. *)
Inductive Phase :=
| Security
| Normalization
| RouteDispatch
| NotFoundCatchAll
| ErrorClassifier.

Definition phase (s : Stage) : Phase :=
  match s with
  | Use (CookieSession _) | Use Hpp | Use Helmet | Use (Cors _) => Security
  | Use Compression | Use (JsonBody _) | Use (Urlencoded _) => Normalization
  | Mounted _ => RouteDispatch
  | All _ _ => NotFoundCatchAll
  | UseError _ => ErrorClassifier
  end.

Definition rank (p : Phase) : nat :=
  match p with
  | Security => 0
  | Normalization => 1
  | RouteDispatch => 2
  | NotFoundCatchAll => 3
  | ErrorClassifier => 4
  end.

(** Nondecreasing, as a computable check. *)
Fixpoint nondecreasing (l : list nat) : bool :=
  match l with
  | a :: (b :: _) as rest => Nat.leb a b && nondecreasing rest
  | _ => true
  end.

Definition is_exit (a : Act) : bool :=
  match a with Exit _ => true | _ => false end.

Definition is_adapter (a : Act) : bool :=
  match a with AdapterInstalled => true | _ => false end.

Definition is_error_log (a : Act) : bool :=
  match a with
  | Logged {| level := Error |} => true
  | _ => false
  end.

(** The error in flight after a handler handed over. *)
Definition leftover (sg : Signal) : option Thrown :=
  match sg with
  | NextWith e => Some e
  | _ => None
  end.

Definition is_error_stage (s : Stage) : bool :=
  match s with UseError _ => true | _ => false end.



Definition error_logged (e : Thrown) : Act := Logged (mkLogEntry Error None (Some e)).

(** The first fault start-up runs into, following the order of the calls in
    [startServer] and [createSocketIO]; [listen] does not throw. *)
Definition first_fault (env : Env) : option Thrown :=
  match new_http_Server env with Some e => Some e | None =>
  match new_Server env with Some e => Some e | None =>
  match createClient env with Some e => Some e | None =>
  match duplicate env with Some e => Some e | None =>
  match connect env (first_settled env) with Some e => Some e | None =>
  match connect env (other (first_settled env)) with Some e => Some e | None =>
  adapter env
  end end end end end end.

(** Layers that answer on behalf of the application: mounted routes and the
    catch-all. *)
Definition is_handler_stage (s : Stage) : bool :=
  match s with
  | Mounted _ | All _ _ => true
  | _ => false
  end.



End Server.

(** ** A concrete deployment, for examples *)
Module Sample.
Import Server.

Definition cfg : Config :=
  {| CLIENT_URL := "http://localhost:3000";
     REDIS_HOST := "redis://localhost:6379";
     SECRET_KEY_ONE := "one";
     SECRET_KEY_TWO := "two";
     NODE_ENV := "development" |}.

Definition forbidden : CustomError :=
  {| statusCode := 403;
     message := "forbidden";
     serializeError :=
       JObj [("message", JStr "forbidden"); ("status", JStr "error");
             ("statusCode", JNum 403)] |}.

(** A route that answers [/secret] by raising [forbidden]. *)
Definition secret : Route :=
  {| matches := fun req => String.eqb (originalUrl req) "/secret";
     handle := fun _ => ([], NextWith (Classified forbidden)) |}.

(** A route that answers [/crash] by throwing something unclassified. *)
Definition crash : Route :=
  {| matches := fun req => String.eqb (originalUrl req) "/crash";
     handle := fun _ => ([], NextWith (Unclassified "TypeError")) |}.

(** Every package behaves: middleware passes requests on, nothing throws. *)
Definition env : Env :=
  {| behave := fun _ _ => ([], Next);
     applicationRoutes := [secret; crash];
     pid := "4242";
     new_http_Server := None;
     new_Server := None;
     createClient := None;
     duplicate := None;
     connect := fun _ => None;
     first_settled := Pub;
     adapter := None;
     listen := None |}.

(** The same, with the broker unreachable for the publishing client. *)
Definition env_pub_down : Env :=
  {| behave := fun _ _ => ([], Next);
     applicationRoutes := [secret; crash];
     pid := "4242";
     new_http_Server := None;
     new_Server := None;
     createClient := None;
     duplicate := None;
     connect := fun r => match r with
                         | Pub => Some (Unclassified "ECONNREFUSED")
                         | Sub => None
                         end;
     first_settled := Sub;
     adapter := None;
     listen := None |}.

Definition get (url : string) : Request := {| method := "GET"; originalUrl := url |}.

(** The same as [env], except that the JSON body parser turns the request
    down, as it does for a body over its size limit. *)
Definition env_body_too_large : Env :=
  {| behave := fun m _ =>
       match m with
       | JsonBody _ => ([], NextWith (Unclassified "PayloadTooLargeError"))
       | _ => ([], Next)
       end;
     applicationRoutes := [secret; crash];
     pid := "4242";
     new_http_Server := None;
     new_Server := None;
     createClient := None;
     duplicate := None;
     connect := fun _ => None;
     first_settled := Pub;
     adapter := None;
     listen := None |}.

(** The same as [env], except that the port is taken. *)
Definition env_port_taken : Env :=
  {| behave := fun _ _ => ([], Next);
     applicationRoutes := [secret; crash];
     pid := "4242";
     new_http_Server := None;
     new_Server := None;
     createClient := None;
     duplicate := None;
     connect := fun _ => None;
     first_settled := Pub;
     adapter := None;
     listen := Some (Unclassified "EADDRINUSE") |}.



(** A classified error whose status code is no HTTP status. *)
Definition out_of_range : CustomError :=
  {| statusCode := 1000;
     message := "out of range";
     serializeError :=
       JObj [("message", JStr "out of range"); ("status", JStr "error");
             ("statusCode", JNum 1000)] |}.

(** A route that starts its answer and then raises [forbidden]. *)
Definition late : Route :=
  {| matches := fun req => String.eqb (originalUrl req) "/late";
     handle := fun _ => ([Status 200; Send "partial"], NextWith (Classified forbidden)) |}.

(** A route that raises [out_of_range]. *)
Definition bad_status : Route :=
  {| matches := fun req => String.eqb (originalUrl req) "/bad-status";
     handle := fun _ => ([], NextWith (Classified out_of_range)) |}.

(** The same as [env], with these two routes mounted. *)
Definition env_late : Env :=
  {| behave := fun _ _ => ([], Next);
     applicationRoutes := [late; bad_status];
     pid := "4242";
     new_http_Server := None;
     new_Server := None;
     createClient := None;
     duplicate := None;
     connect := fun _ => None;
     first_settled := Pub;
     adapter := None;
     listen := None |}.

End Sample.

(** * Properties *)

(** ** The connection supervisor *)
Section DatabaseFacts.
Import Database.
Variable cfg : Config.

Lemma emit_unheard (p : Process) (name : string) :
  listeners p !! name = None -> emit cfg name p = p.
Proof. intros H. unfold emit. rewrite H. reflexivity. Qed.


Lemma setup_unheard (name : string) :
  name <> reconnect_event ->
  listeners (setupDatabase cfg boot) !! name = None.
Proof.
  intros Hne. unfold setupDatabase, on. cbn [listeners connect boot].
  rewrite lookup_insert_ne by congruence. apply lookup_empty.
Qed.

Lemma run_app (evs1 evs2 : list Event) (p : Process) :
  run cfg (evs1 ++ evs2) p = run cfg evs2 (run cfg evs1 p).
Proof. unfold run. apply foldl_app. Qed.

Lemma run_cons (ev : Event) (evs : list Event) (p : Process) :
  run cfg (ev :: evs) p = run cfg evs (step cfg p ev).
Proof. reflexivity. Qed.

(** Once [process.exit] ran, no event changes anything. *)
Lemma run_dead (evs : list Event) (p : Process) :
  exit_code p <> None -> run cfg evs p = p.
Proof.
  intros H. induction evs as [|ev evs IH]; [reflexivity|].
  rewrite run_cons. unfold step.
  destruct (exit_code p) eqn:E; [exact IH | congruence].
Qed.

(** Events nobody listens to leave the process as it is. *)
Lemma run_unheard (names : list string) (p : Process) :
  Forall (fun name => listeners p !! name = None) names ->
  run cfg (map Emitted names) p = p.
Proof.
  induction 1 as [|name names Hn _ IH]; [reflexivity|].
  cbn [map]. rewrite run_cons. unfold step.
  destruct (exit_code p); rewrite ?emit_unheard by assumption; exact IH.
Qed.

(** Notifications under the name "disconnected" reach no listener. *)
Lemma notifications_unheard (n : nat) :
  run cfg (notifications n) (run cfg [Settled None] (setupDatabase cfg boot))
  = run cfg [Settled None] (setupDatabase cfg boot).
Proof.
  unfold notifications. rewrite <- (fmap_replicate Emitted n disconnected).
  apply run_unheard, Forall_replicate. reflexivity.
Qed.







(** C2: when the initial attempt fails, the error is logged, the process
    exits with code 1, and [mongoose.connect] was called exactly once - no
    reconnect - whatever events other than the registered one the
    connection emitted in between; nothing runs afterwards. *)
Theorem initial_failure_is_fatal (error : Thrown) (names : list string) :
  Forall (fun name => name <> reconnect_event) names ->
  let p := run cfg (map Emitted names ++ [Settled (Some error)])
               (setupDatabase cfg boot) in
  log p = [error_entry error] /\
  exit_code p = Some 1%Z /\
  attempts p = [DATABASE_URL cfg] /\
  reconnects p = 0 /\
  forall later : list Event, run cfg later p = p.
Proof.
  intros Hnames. cbn zeta. rewrite run_app, run_unheard.
  - repeat split. intros later. apply run_dead. discriminate.
  - eapply Forall_impl; [exact Hnames|]. intros name Hne.
    apply setup_unheard, Hne.
Qed.

End DatabaseFacts.

Lemma initial_failure_is_fatal_witness :
  let cfg := Database.mkConfig "mongodb://127.0.0.1:27017/chatty" in
  let error := Unclassified "ECONNREFUSED" in
  let p := Database.run cfg
             (map Database.Emitted ["connecting"; "disconnected"]
                ++ [Database.Settled (Some error)])
             (Database.setupDatabase cfg Database.boot) in
  Database.log p = [Database.error_entry error] /\
  Database.exit_code p = Some 1%Z /\
  Database.attempts p = ["mongodb://127.0.0.1:27017/chatty"] /\
  Database.reconnects p = 0 /\
  forall later : list Database.Event, Database.run cfg later p = p.
Proof.
  apply (initial_failure_is_fatal
           (Database.mkConfig "mongodb://127.0.0.1:27017/chatty")
           (Unclassified "ECONNREFUSED") ["connecting"; "disconnected"]).
  repeat constructor; discriminate.
Defined.


(** ** The request pipeline *)
Section PipelineFacts.
Import Server.
Variable cfg : Config.
Variable env : Env.

Lemma routesMiddleware_app (app : Application) :
  routesMiddleware env app = app ++ map Mounted (applicationRoutes env).
Proof.
  unfold routesMiddleware. generalize (applicationRoutes env) as routes.
  intros routes. revert app.
  induction routes as [|r routes IH]; intros app; cbn [foldl map].
  - symmetry. apply app_nil_r.
  - rewrite IH. unfold use. rewrite <- app_assoc. reflexivity.
Qed.

(** The stack [start] leaves on the application. *)
Lemma start_stack (app : Application) :
  app_of (start cfg env app) =
    app ++
    [Use (CookieSession (sessionOptions cfg)); Use Hpp; Use Helmet;
     Use (Cors (httpCors cfg));
     Use Compression;
     Use (JsonBody {| extended := None; limit := "50mb" |});
     Use (Urlencoded {| extended := Some true; limit := "50mb" |})] ++
    map Mounted (applicationRoutes env) ++
    [All "*" notFound; UseError errorHandler].
Proof.
  unfold start. destruct (startServer cfg env []) as [tr r]. cbn [app_of].
  unfold globalErrorHandler, standardMiddleware, securityMiddleware, use.
  rewrite routesMiddleware_app.
  repeat rewrite <- app_assoc. reflexivity.
Qed.

(** Layers run in stack order, whatever the request. *)
Lemma dispatch_sublist (stack : list Stage) (err : option Thrown) (req : Request)
    (res : Response) :
  ran (dispatch env stack err req res) `sublist_of` stack.
Proof.
  revert err res. induction stack as [|s stack IH]; intros err res; cbn [dispatch].
  - constructor.
  - destruct (invoke env s err req res) as [[effs [| e |]]|]; cbn [ran prepend].
    + apply sublist_skip, IH.
    + apply sublist_skip, IH.
    + apply sublist_skip, sublist_nil_l.
    + apply sublist_cons, IH.
Qed.

Lemma nondecreasing_cons (a b : nat) (rest : list nat) :
  nondecreasing (a :: b :: rest) = Nat.leb a b && nondecreasing (b :: rest).
Proof. reflexivity. Qed.

Lemma routes_ranked (routes : list Route) (a : nat) :
  a <= 2 ->
  nondecreasing (a :: map (fun s => rank (phase s)) (map Mounted routes) ++ [3; 4]) = true.
Proof.
  revert a. induction routes as [|r routes IH]; intros a Ha.
  - cbn. rewrite andb_true_r. apply Nat.leb_le. lia.
  - cbn [map app]. rewrite nondecreasing_cons, IH by (cbn; lia).
    rewrite andb_true_r. apply Nat.leb_le. cbn. exact Ha.
Qed.

(** While an error is in flight, ordinary layers are skipped. *)
Lemma dispatch_error_skips (pre rest : list Stage) (e : Thrown) (req : Request)
    (res : Response) :
  forallb (fun s => negb (is_error_stage s)) pre = true ->
  dispatch env (pre ++ rest) (Some e) req res = dispatch env rest (Some e) req res.
Proof.
  induction pre as [|s pre IH]; [reflexivity|].
  cbn [forallb app dispatch]. intros [Hs Hpre]%andb_prop.
  destruct s; cbn in Hs; try discriminate; cbn [invoke]; apply IH, Hpre.
Qed.

(** What [res.status(..).json(..)] can throw. *)
Lemma status_json_throws (res : Response) (code : Z) (body : Json) (thrown : Thrown) :
  snd (status_json res code body) = Some thrown ->
  (thrown = ERR_HTTP_HEADERS_SENT \/ thrown = ERR_HTTP_INVALID_STATUS_CODE) /\
  responded (fst (status_json res code body)) = false.
Proof.
  unfold status_json. destruct (headersSent res); [intros [= <-]; auto|].
  destruct ((100 <=? code)%Z && (code <=? 999)%Z); [discriminate|].
  intros [= <-]. auto.
Qed.

(** The error handler always hands over: with [next()], or with what line
    94 threw. *)
Lemma errorHandler_hands_over (e : Thrown) (req : Request) (res : Response) :
  snd (errorHandler e req res) = Next \/
  snd (errorHandler e req res) = NextWith ERR_HTTP_HEADERS_SENT \/
  snd (errorHandler e req res) = NextWith ERR_HTTP_INVALID_STATUS_CODE.
Proof.
  unfold errorHandler. destruct (instanceofCustomError e) as [ce|]; [|auto].
  destruct (status_json res (statusCode ce) (serializeError ce)) as [effs [t|]] eqn:E;
    [|auto].
  destruct (status_json_throws res (statusCode ce) (serializeError ce) t) as [[->| ->] _];
    [rewrite E; reflexivity | auto | auto].
Qed.

Lemma dispatch_errorHandler (e : Thrown) (req : Request) (res : Response) :
  dispatch env [UseError errorHandler] (Some e) req res =
    {| ran := [UseError errorHandler];
       effects := fst (errorHandler e req res);
       final := FellThrough (leftover (snd (errorHandler e req res))) |}.
Proof.
  cbn [dispatch invoke].
  destruct (errorHandler_hands_over e req res) as [H|[H|H]];
    destruct (errorHandler e req res) as [effs sg]; cbn in H; subst sg;
    unfold prepend; cbn; rewrite app_nil_r; reflexivity.
Qed.

(** Every non-empty tail of the stack is a run of ordinary layers followed
    by the error handler. *)
Lemma stack_tail (pre post : list Stage) :
  app_of (start cfg env []) = pre ++ post -> post <> [] ->
  exists mid, post = mid ++ [UseError errorHandler] /\
              forallb (fun s => negb (is_error_stage s)) mid = true.
Proof.
  rewrite start_stack. intros Heq Hne.
  destruct (exists_last Hne) as (mid & x & ->).
  exists mid.
  change ([All "*" notFound; UseError errorHandler])
    with ([All "*" notFound] ++ [UseError errorHandler]) in Heq.
  rewrite !app_assoc in Heq. apply app_inj_tail in Heq as [Heq ->].
  split; [reflexivity|].
  assert (H : forallb (fun s => negb (is_error_stage s)) (pre ++ mid) = true).
  { rewrite <- Heq. cbn [app forallb is_error_stage negb andb].
    rewrite forallb_app. cbn [forallb is_error_stage negb andb].
    rewrite andb_true_r. apply forallb_forall. intros s [r [<- _]]%in_map_iff.
    reflexivity. }
  rewrite forallb_app in H. apply andb_prop in H. apply H.
Qed.

(** An error raised by any layer of the stack reaches the error handler,
    and nothing else runs. *)
Lemma dispatch_raised (pre post : list Stage) (e : Thrown) (req : Request)
    (res : Response) :
  app_of (start cfg env []) = pre ++ post -> post <> [] ->
  dispatch env post (Some e) req res =
    {| ran := [UseError errorHandler];
       effects := fst (errorHandler e req res);
       final := FellThrough (leftover (snd (errorHandler e req res))) |}.
Proof.
  intros Heq Hne. destruct (stack_tail pre post Heq Hne) as (mid & -> & Hmid).
  rewrite dispatch_error_skips by exact Hmid. apply dispatch_errorHandler.
Qed.



(** C8: [start] registers, after whatever the application already holds,
    the security stages, then the body stages, then the routes, then the
    not-found catch-all and last the error handler; the phases never go
    back, and for every request (with or without an error in flight,
    whatever the state of its response) the layers that run do so in this
    order. *)
Theorem start_registers_fixed_order (app0 : Application) :
  let stack := app_of (start cfg env []) in
  app_of (start cfg env app0) = app0 ++ stack /\
  stack =
    [Use (CookieSession (sessionOptions cfg)); Use Hpp; Use Helmet;
     Use (Cors (httpCors cfg))] ++
    [Use Compression;
     Use (JsonBody {| extended := None; limit := "50mb" |});
     Use (Urlencoded {| extended := Some true; limit := "50mb" |})] ++
    map Mounted (applicationRoutes env) ++
    [All "*" notFound] ++ [UseError errorHandler] /\
  nondecreasing (map (fun s => rank (phase s)) stack) = true /\
  last stack = Some (UseError errorHandler) /\
  forall (err : option Thrown) (req : Request) (res : Response),
    ran (dispatch env stack err req res) `sublist_of` stack.
Proof.
  cbn zeta. rewrite !start_stack. cbn [app].
  split; [reflexivity|]. split; [reflexivity|]. split; [|split].
  - cbn [map phase rank]. rewrite map_app. cbn [map phase rank].
    rewrite !nondecreasing_cons. cbn [Nat.leb andb].
    apply routes_ranked. lia.
  - rewrite !app_comm_cons.
    change ([All "*" notFound; UseError errorHandler])
      with ([All "*" notFound] ++ [UseError errorHandler]).
    rewrite app_assoc. apply last_snoc.
  - intros err req res. apply dispatch_sublist.
Qed.


(** C6, as the code has it: a classified error raised by any layer of the
    stack is logged at error severity; if no response has been started and
    its status code lies in 100..999 it is answered with its own status
    code and its own serialized payload, unchanged.  Otherwise line 94
    throws: no payload is sent and the walk goes on with what was thrown
    in place of the classified error. *)
Theorem classified_error_verbatim
    (ce : CustomError) (req : Request) (res : Response) (pre post : list Stage) :
  app_of (start cfg env []) = pre ++ post -> post <> [] ->
  let o := dispatch env post (Some (Classified ce)) req res in
  ran o = [UseError errorHandler] /\
  head (effects o) = Some (Log (mkLogEntry Error None (Some (Classified ce)))) /\
  (headersSent res = false -> (100 <= statusCode ce <= 999)%Z ->
   effects o =
     [Log (mkLogEntry Error None (Some (Classified ce)));
      Status (statusCode ce);
      SendJson (serializeError ce)] /\
   final o = FellThrough None) /\
  (headersSent res = true \/ ~ (100 <= statusCode ce <= 999)%Z ->
   responded (effects o) = false /\
   (final o = FellThrough (Some ERR_HTTP_HEADERS_SENT) \/
    final o = FellThrough (Some ERR_HTTP_INVALID_STATUS_CODE))).
Proof.
  intros Heq Hne. cbn zeta. rewrite (dispatch_raised pre post _ req res Heq Hne).
  cbn [ran effects final]. unfold errorHandler, status_json. cbn [instanceofCustomError].
  destruct (headersSent res).
  - cbn. split; [reflexivity|]. split; [reflexivity|].
    split; [intros H; discriminate H|]. intros _.
    split; [reflexivity | left; reflexivity].
  - destruct (Z.leb_spec 100 (statusCode ce)), (Z.leb_spec (statusCode ce) 999);
      cbn; (split; [reflexivity|]); (split; [reflexivity|]).
    + split; [intros _ _; split; reflexivity|].
      intros [H'|H']; [discriminate H' | lia].
    + split; [intros _ ?; lia|]. intros _. split; [reflexivity | right; reflexivity].
    + split; [intros _ ?; lia|]. intros _. split; [reflexivity | right; reflexivity].
    + split; [intros _ ?; lia|]. intros _. split; [reflexivity | right; reflexivity].
Qed.

(** C5, as the code has it: an unclassified error raised by any layer of
    the stack is logged at error severity; the error handler writes no
    status and no body for it, and calls [next()] without an error, so the
    walk ends with no error in flight - whatever was done to the response
    before. *)
Theorem unclassified_error_logged_only
    (what : string) (req : Request) (res : Response) (pre post : list Stage) :
  app_of (start cfg env []) = pre ++ post -> post <> [] ->
  let o := dispatch env post (Some (Unclassified what)) req res in
  errorHandler (Unclassified what) req res =
    ([Log (mkLogEntry Error None (Some (Unclassified what)))], Next) /\
  effects o = [Log (mkLogEntry Error None (Some (Unclassified what)))] /\
  responded (effects o) = false /\
  ran o = [UseError errorHandler] /\
  final o = FellThrough None.
Proof.
  intros Heq Hne. cbn zeta. rewrite (dispatch_raised pre post _ req res Heq Hne).
  repeat split.
Qed.

(** A walk over a stack that ends in the catch-all and the error handler
    either stops at an ordinary layer, or runs out right after the error
    handler with nothing in flight but what line 94 threw. *)
Lemma dispatch_contained (pre : list Stage) (err : option Thrown) (req : Request)
    (res : Response) :
  forallb (fun s => negb (is_error_stage s)) pre = true ->
  let o := dispatch env (pre ++ [All "*" notFound; UseError errorHandler]) err req res in
  (final o = Stopped /\ existsb is_error_stage (ran o) = false) \/
  (exists stages, ran o = stages ++ [UseError errorHandler] /\
                  existsb is_error_stage stages = false /\
                  (final o = FellThrough None \/
                   final o = FellThrough (Some ERR_HTTP_HEADERS_SENT) \/
                   final o = FellThrough (Some ERR_HTTP_INVALID_STATUS_CODE))).
Proof.
  cbn zeta. revert err res. induction pre as [|s pre IH]; intros err res Hpre.
  - destruct err as [e|]; cbn [app].
    + change ([All "*" notFound; UseError errorHandler])
        with ([All "*" notFound] ++ [UseError errorHandler]).
      rewrite dispatch_error_skips by reflexivity.
      rewrite dispatch_errorHandler. right. exists []. cbn [ran final app existsb].
      split; [reflexivity|]. split; [reflexivity|].
      destruct (errorHandler_hands_over e req res) as [->|[-> | ->]]; cbn; auto.
    + destruct res as [[|]]; cbn.
      * right. exists [All "*" notFound]. auto.
      * left. auto.
  - cbn [forallb] in Hpre. apply andb_prop in Hpre as [Hs Hpre].
    apply negb_true_iff in Hs.
    cbn [app dispatch].
    destruct (invoke env s err req res) as [[effs [|e|]]|].
    + destruct (IH None (written res effs) Hpre)
        as [[Hf Hr]|(stages & Hr & Hst & Hf)]; cbn.
      * left. rewrite Hf, Hs, Hr. split; reflexivity.
      * right. exists (s :: stages).
        rewrite Hr. cbn. rewrite Hs, Hst. split; [reflexivity|]. split; [reflexivity|].
        exact Hf.
    + destruct (IH (Some e) (written res effs) Hpre)
        as [[Hf Hr]|(stages & Hr & Hst & Hf)]; cbn.
      * left. rewrite Hf, Hs, Hr. split; reflexivity.
      * right. exists (s :: stages).
        rewrite Hr. cbn. rewrite Hs, Hst. split; [reflexivity|]. split; [reflexivity|].
        exact Hf.
    + left. cbn. rewrite Hs. split; reflexivity.
    + apply IH, Hpre.
Qed.

(** X8: whatever the package middleware and the routes do, a request
    leaves the stack in one of two ways.  Either an ordinary layer ends the
    walk and the error handler did not run; or the error handler ran
    exactly once, as the last layer, and the stack ran out - with no error
    in flight, or with the error thrown by the handler's own
    [res.status(..).json(..)] (response already started, or a status code
    outside 100..999).  No other error gets past the handler. *)
Theorem only_write_errors_escape (err : option Thrown) (req : Request) (res : Response) :
  let o := dispatch env (app_of (start cfg env [])) err req res in
  (final o = Stopped /\ existsb is_error_stage (ran o) = false) \/
  (exists stages, ran o = stages ++ [UseError errorHandler] /\
                  existsb is_error_stage stages = false /\
                  (final o = FellThrough None \/
                   final o = FellThrough (Some ERR_HTTP_HEADERS_SENT) \/
                   final o = FellThrough (Some ERR_HTTP_INVALID_STATUS_CODE))).
Proof.
  cbn zeta. rewrite start_stack. cbn [app]. rewrite !app_comm_cons.
  apply dispatch_contained.
  cbn [forallb is_error_stage negb andb].
  apply forallb_forall. intros s [r [<- _]]%in_map_iff. reflexivity.
Qed.

(** Once a package middleware does not pass the request on, neither a
    route nor the catch-all runs. *)
Lemma dispatch_gate (ms : list ThirdParty) (rest : list Stage) (req : Request) :
  (forall e res,
     existsb is_handler_stage (ran (dispatch env rest (Some e) req res)) = false) ->
  Exists (fun m => snd (behave env m req) <> Next) ms ->
  forall res,
    existsb is_handler_stage (ran (dispatch env (map Use ms ++ rest) None req res)) = false.
Proof.
  intros Hrest. induction ms as [|m ms IH]; intros Hex res.
  - inversion Hex.
  - cbn [map app dispatch invoke].
    destruct (behave env m req) as [effs sg] eqn:Hm. destruct sg as [|e|].
    + cbn. apply IH. inversion Hex as [? ? Hhd|]; subst; [|assumption].
      rewrite Hm in Hhd. cbn in Hhd. congruence.
    + cbn. rewrite dispatch_error_skips; [apply Hrest|].
      apply forallb_forall. intros s [m' [<- _]]%in_map_iff. reflexivity.
    + reflexivity.
Qed.

(** X9: the security and body stages gate the application.  If any of
    them answers the request itself or raises an error - a rejected
    cross-origin call, a body over the size limit - no route handler and
    not the catch-all runs for that request. *)
Theorem blocked_request_reaches_no_handler
    (req : Request) (res : Response) (m : ThirdParty) :
  In (Use m) (app_of (start cfg env [])) ->
  snd (behave env m req) <> Next ->
  existsb is_handler_stage
    (ran (dispatch env (app_of (start cfg env [])) None req res)) = false.
Proof.
  rewrite start_stack. cbn [app]. intros Hin Hm.
  change (existsb is_handler_stage
    (ran (dispatch env
       (map Use [CookieSession (sessionOptions cfg); Hpp; Helmet;
                 Cors (httpCors cfg); Compression;
                 JsonBody {| extended := None; limit := "50mb" |};
                 Urlencoded {| extended := Some true; limit := "50mb" |}]
        ++ (map Mounted (applicationRoutes env)
            ++ [All "*" notFound; UseError errorHandler]))
       None req res)) = false).
  apply dispatch_gate.
  - intros e res'.
    change ([All "*" notFound; UseError errorHandler])
      with ([All "*" notFound] ++ [UseError errorHandler]).
    rewrite app_assoc, dispatch_error_skips.
    + rewrite dispatch_errorHandler. reflexivity.
    + rewrite forallb_app. cbn [forallb is_error_stage negb andb].
      rewrite andb_true_r. apply forallb_forall.
      intros s [r [<- _]]%in_map_iff. reflexivity.
  - apply Exists_exists. exists m. split; [|exact Hm]. apply list_elem_of_In.
    repeat (destruct Hin as [Hin|Hin];
            [injection Hin as <-; cbn; auto 10|]).
    apply in_app_iff in Hin as [Hin|Hin].
    + apply in_map_iff in Hin as (r & Hr & _). discriminate.
    + repeat (destruct Hin as [Hin|Hin]; [discriminate|]). contradiction.
Qed.

End PipelineFacts.



Lemma classified_error_verbatim_witness :
  let stack := Server.app_of (Server.start Sample.cfg Sample.env []) in
  let o := Server.dispatch Sample.env (drop 8 stack)
             (Some (Classified Sample.forbidden)) (Sample.get "/secret") Server.fresh in
  Server.effects o =
    [Server.Log (mkLogEntry Error None (Some (Classified Sample.forbidden)));
     Server.Status 403;
     Server.SendJson
       (JObj [("message", JStr "forbidden"); ("status", JStr "error");
              ("statusCode", JNum 403)])] /\
  Server.final o = Server.FellThrough None.
Proof.
  destruct (classified_error_verbatim Sample.cfg Sample.env Sample.forbidden
              (Sample.get "/secret") Server.fresh
              (take 8 (Server.app_of (Server.start Sample.cfg Sample.env [])))
              (drop 8 (Server.app_of (Server.start Sample.cfg Sample.env []))))
    as (_ & _ & H & _).
  - reflexivity.
  - discriminate.
  - apply H; [reflexivity | cbn; lia].
Defined.

(** C6 as the specification words it fails on the code: a route that has
    started its answer and then raises the classified 403 gets that error
    logged, but neither its status nor its payload reaches the client, and
    the walk ends with the write error in flight; the same happens to a
    classified error whose status code is 1000. *)
Lemma classified_error_not_answered :
  let stack := Server.app_of (Server.start Sample.cfg Sample.env_late []) in
  let o := Server.dispatch Sample.env_late stack None (Sample.get "/late") Server.fresh in
  let o' := Server.dispatch Sample.env_late stack None
              (Sample.get "/bad-status") Server.fresh in
  Server.effects o =
    [Server.Status 200; Server.Send "partial";
     Server.Log (mkLogEntry Error None (Some (Classified Sample.forbidden)));
     Server.Status 403] /\
  Server.final o = Server.FellThrough (Some Server.ERR_HTTP_HEADERS_SENT) /\
  Server.effects o' =
    [Server.Log (mkLogEntry Error None (Some (Classified Sample.out_of_range)));
     Server.Status 1000] /\
  Server.responded (Server.effects o') = false /\
  Server.final o' = Server.FellThrough (Some Server.ERR_HTTP_INVALID_STATUS_CODE).
Proof. vm_compute. repeat split. Qed.

Lemma unclassified_error_logged_only_witness :
  let stack := Server.app_of (Server.start Sample.cfg Sample.env []) in
  let o := Server.dispatch Sample.env (drop 9 stack)
             (Some (Unclassified "TypeError")) (Sample.get "/crash") Server.fresh in
  Server.errorHandler (Unclassified "TypeError") (Sample.get "/crash") Server.fresh =
    ([Server.Log (mkLogEntry Error None (Some (Unclassified "TypeError")))],
     Server.Next) /\
  Server.effects o =
    [Server.Log (mkLogEntry Error None (Some (Unclassified "TypeError")))] /\
  Server.responded (Server.effects o) = false /\
  Server.ran o = [Server.UseError Server.errorHandler] /\
  Server.final o = Server.FellThrough None.
Proof.
  apply (unclassified_error_logged_only Sample.cfg Sample.env "TypeError"
           (Sample.get "/crash") Server.fresh
           (take 9 (Server.app_of (Server.start Sample.cfg Sample.env [])))
           (drop 9 (Server.app_of (Server.start Sample.cfg Sample.env [])))).
  - reflexivity.
  - discriminate.
Defined.

(** C5 as the specification words it fails on the code: a request to a
    route that throws something unclassified runs through the whole stack
    without any layer writing a status or a body. *)
Lemma unclassified_error_gets_no_response :
  let o := Server.dispatch Sample.env
             (Server.app_of (Server.start Sample.cfg Sample.env []))
             None (Sample.get "/crash") Server.fresh in
  Server.effects o =
    [Server.Log (mkLogEntry Error None (Some (Unclassified "TypeError")))] /\
  Server.responded (Server.effects o) = false /\
  Server.responded (fst (Server.errorHandler (Unclassified "TypeError")
                           (Sample.get "/crash") Server.fresh)) <> true.
Proof. vm_compute. repeat split. discriminate. Qed.

(** Scenario D end to end: the route raises the classified 403 and the
    client receives exactly its payload. *)
Example scenario_D :
  Server.effects
    (Server.dispatch Sample.env
       (Server.app_of (Server.start Sample.cfg Sample.env []))
       None (Sample.get "/secret") Server.fresh) =
  [Server.Log (mkLogEntry Error None (Some (Classified Sample.forbidden)));
   Server.Status 403;
   Server.SendJson
     (JObj [("message", JStr "forbidden"); ("status", JStr "error");
            ("statusCode", JNum 403)])].
Proof. reflexivity. Qed.

(** Scenario C end to end. *)
Example scenario_C :
  Server.effects
    (Server.dispatch Sample.env
       (Server.app_of (Server.start Sample.cfg Sample.env []))
       None (Sample.get "/nope") Server.fresh) =
  [Server.Status 404;
   Server.SendJson (JObj [("message", JStr "/nope not found.")])].
Proof. reflexivity. Qed.

(** ** Start-up *)
Section StartupFacts.
Import Server.
Variable cfg : Config.

Ltac open_startup :=
  unfold startServer, createSocketIO, startHttpServer, socketIOConnections,
    await_all, settled, extern, try_catch, bind, act, ret, throw, first_fault,
    error_logged.

(** Case analysis on what the environment does, in the order the code
    meets it; [tac] closes each completed run. *)
Ltac walk env tac :=
  cbn; simplify_eq;
  lazymatch goal with
  | |- context [first_settled env] =>
      destruct (first_settled env) eqn:?; walk env tac
  | |- context [match ?x with Some _ => _ | None => _ end] =>
      destruct x eqn:?; walk env tac
  | _ => tac
  end.


Ltac blame :=
  first [ exists Pub; eexists; split; [eassumption | repeat split; reflexivity]
        | exists Sub; eexists; split; [eassumption | repeat split; reflexivity] ].

Lemma start_trace (env : Env) (app : Application) :
  trace (start cfg env app) = fst (startServer cfg env []) /\
  rejected (start cfg env app) =
    match snd (startServer cfg env []) with
    | inl e => Some e
    | inr _ => None
    end.
Proof. unfold start. destruct (startServer cfg env []). split; reflexivity. Qed.

Lemma start_aftermath (env : Env) (app : Application) :
  aftermath (start cfg env app) =
    if existsb is_listen (fst (startServer cfg env [])) then bound env else [].
Proof. unfold start. destruct (startServer cfg env []). reflexivity. Qed.

(** A [try] whose [catch] block cannot throw never throws. *)
Lemma try_catch_returns {A : Type} (body : M A) (handler : Thrown -> M A) :
  (forall e tr, exists tr' a, handler e tr = (tr', inr a)) ->
  forall tr, exists tr' a, try_catch body handler tr = (tr', inr a).
Proof.
  intros Hh tr. unfold try_catch. destruct (body tr) as [tr' [e|a]].
  - apply Hh.
  - exists tr', a. reflexivity.
Qed.

Lemma startServer_returns (env : Env) (tr : list Act) :
  snd (startServer cfg env tr) = inr tt.
Proof.
  unfold startServer.
  match goal with
  | |- context [try_catch ?b ?h tr] =>
      destruct (try_catch_returns b h) with (tr := tr) as (tr' & [] & ->)
  end.
  - intros e tr0. eexists _, tt. reflexivity.
  - reflexivity.
Qed.

(** C10, as the code has it: the promise of [startServer] is always
    fulfilled, so [start] has nothing to propagate; whichever call fails
    first while building the servers, creating or opening the broker
    clients or installing the adapter, its error is what the [catch] block
    logs, as the last thing start-up does, and nothing follows.  Without
    such a failure nothing is logged as an error and start-up ends with
    [listen], which returns normally; a failure to bind the port comes
    later, as an 'error' event outside the [try] that nothing listens to:
    it is not logged but raised as an uncaught exception. *)
Theorem startServer_contains_failures (env : Env) (app : Application) :
  (forall tr : list Act, snd (startServer cfg env tr) = inr tt) /\
  rejected (start cfg env app) = None /\
  match first_fault env with
  | Some e =>
      last (trace (start cfg env app)) = Some (error_logged e) /\
      aftermath (start cfg env app) = []
  | None =>
      existsb is_error_log (trace (start cfg env app)) = false /\
      last (trace (start cfg env app)) = Some (Listen SERVER_PORT) /\
      aftermath (start cfg env app) =
        match listen env with
        | None =>
            [Logged (mkLogEntry Info (Some "[+] Server running on port 5000") None)]
        | Some e => [Uncaught e]
        end
  end.
Proof.
  split; [intros tr; apply startServer_returns|].
  rewrite start_aftermath. destruct (start_trace env app) as [-> ->].
  rewrite startServer_returns. split; [reflexivity|].
  open_startup. unfold bound. walk env ltac:(repeat split; reflexivity).
Qed.


(** C4, as the code has it: when the servers and the clients were built
    and the open of a broker handle fails, the rejection reason of a handle
    is logged at error severity as the last act of start-up, the process is
    not exited and [startServer] returns normally - but [startHttpServer]
    is skipped: [listen] is never called, and the adapter is not
    installed. *)
Theorem broker_failure_skips_listen (env : Env) (role : Role) (e : Thrown) :
  new_http_Server env = None -> new_Server env = None ->
  createClient env = None -> duplicate env = None ->
  connect env role = Some e ->
  let tr := trace (start cfg env []) in
  (exists role' e', connect env role' = Some e' /\ last tr = Some (error_logged e')) /\
  existsb is_exit tr = false /\
  existsb is_listen tr = false /\
  existsb is_adapter tr = false /\
  rejected (start cfg env []) = None.
Proof.
  intros H1 H2 H3 H4 Hrole. cbn zeta.
  destruct (start_trace env []) as [-> ->]. rewrite startServer_returns.
  open_startup. rewrite H1, H2, H3, H4.
  walk env ltac:(
    first [ destruct role; congruence
          | split; [blame | repeat split; reflexivity] ]).
Qed.

(** C9: the cors stage of the HTTP stack and the socket.io server are given
    the same allowed origin and the same allowed verbs - whichever cors
    stage [start] registered and whichever socket.io server it built. *)
Theorem transports_share_cors (env : Env) :
  In (Use (Cors (httpCors cfg))) (app_of (start cfg env [])) /\
  (new_http_Server env = None ->
   In (NewServer (socketCors cfg)) (trace (start cfg env []))) /\
  forall o_http o_socket : CorsOptions,
    In (Use (Cors o_http)) (app_of (start cfg env [])) ->
    In (NewServer o_socket) (trace (start cfg env [])) ->
    origin o_socket = origin o_http /\ methods o_socket = methods o_http.
Proof.
  assert (Hsock : forall o, In (NewServer o) (fst (startServer cfg env [])) ->
                            o = socketCors cfg).
  { open_startup.
    walk env ltac:(
      let o := fresh "o" in let H := fresh "H" in
      intros o H;
      repeat (destruct H as [H|H]; [try discriminate; try (injection H as <-)|]);
      first [reflexivity | contradiction]). }
  destruct (start_trace env []) as [-> _]. rewrite start_stack. cbn [app].
  split; [cbn; auto 10|]. split.
  - intros H. open_startup. rewrite H. walk env ltac:(auto 10).
  - intros o_http o_socket Hh Hs. apply Hsock in Hs as ->.
    assert (o_http = httpCors cfg) as ->; [|split; reflexivity].
    repeat (destruct Hh as [Hh|Hh];
            [try discriminate; try (injection Hh as <-; reflexivity)|]).
    apply in_app_iff in Hh as [Hh|Hh].
    + apply in_map_iff in Hh as (r & Hr & _). discriminate.
    + repeat (destruct Hh as [Hh|Hh]; [discriminate|]). contradiction.
Qed.

(** Beyond origin and verbs the two option objects differ: only the HTTP
    stage sets [credentials] and [optionsSuccessStatus]. *)
Remark cors_extras_only_on_http :
  credentials (httpCors cfg) = Some true /\ credentials (socketCors cfg) = None /\
  optionsSuccessStatus (httpCors cfg) = Some 200%Z /\
  optionsSuccessStatus (socketCors cfg) = None.
Proof. repeat split. Qed.


(** X13: [listen] is called exactly when every earlier step of start-up
    succeeded, and then the adapter is installed and both handles are
    ready: the HTTP listener never starts without the fan-out attached. *)
Theorem listen_iff_fanout_attached (env : Env) (app : Application) :
  let tr := trace (start cfg env app) in
  (existsb is_listen tr = true <->
     new_http_Server env = None /\ new_Server env = None /\
     createClient env = None /\ duplicate env = None /\
     connect env Pub = None /\ connect env Sub = None /\ adapter env = None) /\
  (existsb is_listen tr = true ->
     In (Ready Pub) tr /\ In (Ready Sub) tr /\ In AdapterInstalled tr /\
     In (Listen SERVER_PORT) tr).
Proof.
  cbn zeta. destruct (start_trace env app) as [-> _].
  open_startup.
  walk env ltac:(
    split;
    [ split;
      [ intros H; first [discriminate H | repeat split; congruence]
      | intros (? & ? & ? & ? & ? & ? & ?); first [reflexivity | congruence] ]
    | intros H; first [discriminate H | repeat split; cbn; auto 20] ]).
Qed.

End StartupFacts.


Lemma broker_failure_skips_listen_witness :
  let tr := Server.trace (Server.start Sample.cfg Sample.env_pub_down []) in
  (exists role' e',
     Server.connect Sample.env_pub_down role' = Some e' /\
     last tr = Some (Server.error_logged e')) /\
  existsb Server.is_exit tr = false /\
  existsb Server.is_listen tr = false /\
  existsb Server.is_adapter tr = false /\
  Server.rejected (Server.start Sample.cfg Sample.env_pub_down []) = None.
Proof.
  apply (broker_failure_skips_listen Sample.cfg Sample.env_pub_down
           Server.Pub (Unclassified "ECONNREFUSED")); reflexivity.
Defined.

Lemma transports_share_cors_witness :
  Server.origin (Server.socketCors Sample.cfg) = "http://localhost:3000" /\
  Server.methods (Server.socketCors Sample.cfg) =
    ["GET"; "POST"; "PUT"; "DELETE"; "OPTIONS"].
Proof.
  destruct (transports_share_cors Sample.cfg Sample.env) as (_ & _ & H).
  apply (H (Server.httpCors Sample.cfg) (Server.socketCors Sample.cfg)).
  - cbn. auto 10.
  - cbn. auto 10.
Defined.

(** C4 as the specification words it fails on the code: with the broker
    unreachable for one handle, the error is logged and the process is not
    exited, but the HTTP listener is never started. *)
Lemma broker_down_http_never_listens :
  let tr := Server.trace (Server.start Sample.cfg Sample.env_pub_down []) in
  tr = [Server.NewHttpServer;
        Server.NewServer (Server.socketCors Sample.cfg);
        Server.CreateClient "redis://localhost:6379";
        Server.Duplicate;
        Server.ConnectCalled Server.Pub;
        Server.ConnectCalled Server.Sub;
        Server.Ready Server.Sub;
        Server.Failed Server.Pub (Unclassified "ECONNREFUSED");
        Server.error_logged (Unclassified "ECONNREFUSED")] /\
  existsb Server.is_exit tr = false /\
  existsb Server.is_listen tr = false /\
  ~ In (Server.Listen Server.SERVER_PORT) tr.
Proof.
  cbn. repeat split. intros H.
  repeat (destruct H as [H|H]; [discriminate|]). contradiction.
Qed.

(** The same deployment with the broker reachable does listen. *)
Example broker_up_http_listens :
  Server.trace (Server.start Sample.cfg Sample.env []) =
    [Server.NewHttpServer;
     Server.NewServer (Server.socketCors Sample.cfg);
     Server.CreateClient "redis://localhost:6379";
     Server.Duplicate;
     Server.ConnectCalled Server.Pub;
     Server.ConnectCalled Server.Sub;
     Server.Ready Server.Pub;
     Server.Ready Server.Sub;
     Server.AdapterInstalled;
     Server.Logged
       (mkLogEntry Info (Some "Server has started with process 4242") None);
     Server.Listen 5000].
Proof. reflexivity. Qed.

(** When the port can be bound, the callback of [listen] logs afterwards. *)
Example port_bound_then_logged :
  Server.aftermath (Server.start Sample.cfg Sample.env []) =
    [Server.Logged (mkLogEntry Info (Some "[+] Server running on port 5000") None)].
Proof. reflexivity. Qed.

(** C10 as the specification words it fails on the code: with the port
    taken, start-up logs no error at all, [listen] having returned
    normally; the failure arrives afterwards and is raised uncaught. *)
Lemma bind_failure_not_caught :
  let s := Server.start Sample.cfg Sample.env_port_taken [] in
  Server.listen Sample.env_port_taken = Some (Unclassified "EADDRINUSE") /\
  last (Server.trace s) = Some (Server.Listen 5000) /\
  existsb Server.is_error_log (Server.trace s) = false /\
  existsb Server.is_error_log (Server.aftermath s) = false /\
  Server.aftermath s = [Server.Uncaught (Unclassified "EADDRINUSE")].
Proof. vm_compute. repeat split. Qed.

(** ** The connection supervisor over arbitrary event sequences *)
Section DatabaseInvariants.
Import Database.
Variable cfg : Config.

(** Calling a list of listeners: one connect attempt per listener, nothing
    else touched. *)
Lemma calls_spec (ls : list Listener) (p : Process) :
  let q := foldl (fun q l => call cfg l q) p ls in
  attempts q = attempts p ++ replicate (length ls) (DATABASE_URL cfg) /\
  pending q = pending p + length ls /\
  log q = log p /\ exit_code q = exit_code p /\ listeners q = listeners p.
Proof.
  revert p. induction ls as [|[] ls IH]; intros p; cbn zeta.
  - cbn. rewrite app_nil_r. repeat split. lia.
  - cbn [foldl call length replicate].
    destruct (IH (connect cfg p)) as (Ha & Hp & Hl & Hx & Hls).
    rewrite Ha, Hp, Hl, Hx, Hls. cbn. rewrite <- app_assoc.
    repeat split. lia.
Qed.

Lemma emit_spec (name : string) (p : Process) :
  let n := length (default [] (listeners p !! name)) in
  attempts (emit cfg name p) = attempts p ++ replicate n (DATABASE_URL cfg) /\
  pending (emit cfg name p) = pending p + n /\
  log (emit cfg name p) = log p /\
  exit_code (emit cfg name p) = exit_code p /\
  listeners (emit cfg name p) = listeners p.
Proof. apply calls_spec. Qed.

Lemma after_snoc (evs : list Event) (ev : Event) :
  after cfg (evs ++ [ev]) = step cfg (after cfg evs) ev.
Proof. unfold after. rewrite run_app. reflexivity. Qed.

(** One turn of the event loop only adds attempts and log entries. *)
Lemma step_grows (p : Process) (ev : Event) :
  attempts p `prefix_of` attempts (step cfg p ev) /\
  log p `prefix_of` log (step cfg p ev).
Proof.
  unfold step. destruct (exit_code p); [split; reflexivity|].
  destruct ev as [outcome|name].
  - unfold settle. destruct (pending p); [split; reflexivity|].
    destruct outcome; cbn; split; (reflexivity || apply prefix_app_r; reflexivity).
  - destruct (emit_spec name p) as (Ea & _ & El & _).
    rewrite Ea, El. split; [apply prefix_app_r|]; reflexivity.
Qed.

(** One turn of the event loop leaves the listener table alone. *)
Lemma step_listeners (p : Process) (ev : Event) :
  listeners (step cfg p ev) = listeners p.
Proof.
  unfold step. destruct (exit_code p); [reflexivity|].
  destruct ev as [outcome|name].
  - unfold settle. destruct (pending p); [reflexivity|].
    destruct outcome; reflexivity.
  - apply emit_spec.
Qed.

Lemma listeners_after (evs : list Event) :
  listeners (after cfg evs) = {[ reconnect_event := [ConnectFn] ]}.
Proof.
  induction evs as [|ev evs IH] using rev_ind; [reflexivity|].
  rewrite after_snoc, step_listeners. exact IH.
Qed.

Lemma heard (evs : list Event) (name : string) :
  default [] (listeners (after cfg evs) !! name) =
    if String.eqb name reconnect_event then [ConnectFn] else [].
Proof.
  rewrite listeners_after.
  destruct (String.eqb_spec name reconnect_event) as [->|Hne].
  - rewrite lookup_singleton_eq. reflexivity.
  - rewrite lookup_singleton_ne by congruence. reflexivity.
Qed.

Lemma first_attempt_kept (evs : list Event) : 1 <= length (attempts (after cfg evs)).
Proof.
  induction evs as [|ev evs IH] using rev_ind; [reflexivity|].
  rewrite after_snoc.
  destruct (step_grows (after cfg evs) ev) as [H%prefix_length _]. lia.
Qed.

Lemma alive_without_rejection (evs : list Event) :
  forallb (fun ev => negb (is_rejection ev)) evs = true ->
  exit_code (after cfg evs) = None.
Proof.
  induction evs as [|ev evs IH] using rev_ind; [reflexivity|].
  rewrite forallb_app. intros [Hevs Hev]%andb_prop. cbn in Hev.
  specialize (IH Hevs). rewrite after_snoc. unfold step. rewrite IH.
  destruct ev as [[error|]|name]; try discriminate.
  - unfold settle. destruct (pending (after cfg evs)); [exact IH|]. cbn. exact IH.
  - destruct (emit_spec name (after cfg evs)) as (_ & _ & _ & Hx & _).
    rewrite Hx. exact IH.
Qed.

(** X2: every connect attempt is either still pending or has left exactly
    one log entry. *)
Theorem attempts_accounted (evs : list Event) :
  length (attempts (after cfg evs)) =
    pending (after cfg evs) + length (log (after cfg evs)).
Proof.
  induction evs as [|ev evs IH] using rev_ind; [reflexivity|].
  rewrite after_snoc. unfold step.
  destruct (exit_code (after cfg evs)); [exact IH|].
  destruct ev as [outcome|name].
  - unfold settle. destruct (pending (after cfg evs)) eqn:Hp; [rewrite Hp; exact IH|].
    destruct outcome; cbn; rewrite length_app; cbn; lia.
  - destruct (emit_spec name (after cfg evs)) as (Ha & Hp & Hl & _).
    rewrite Ha, Hp, Hl, length_app, length_replicate. lia.
Qed.

(** X3: no event adds or removes a listener - from any state; after
    [setupDatabase] the table holds [connect] once, under the name of line
    19 - and every attempt goes to the configured address. *)
Theorem listeners_fixed (evs : list Event) :
  (forall p : Process, listeners (run cfg evs p) = listeners p) /\
  listeners (after cfg evs) = {[ reconnect_event := [ConnectFn] ]} /\
  Forall (fun url => url = DATABASE_URL cfg) (attempts (after cfg evs)).
Proof.
  split; [|split].
  - induction evs as [|ev evs IH]; intros p; [reflexivity|].
    rewrite run_cons, IH. apply step_listeners.
  - apply listeners_after.
  - induction evs as [|ev evs IH] using rev_ind; [repeat constructor|].
    rewrite after_snoc. unfold step.
    destruct (exit_code (after cfg evs)); [assumption|].
    destruct ev as [outcome|name].
    + unfold settle. destruct (pending (after cfg evs)); [assumption|].
      destruct outcome; cbn; assumption.
    + destruct (emit_spec name (after cfg evs)) as (Ha & _).
      rewrite Ha. apply Forall_app. split; [assumption|].
      apply Forall_replicate. reflexivity.
Qed.

(** X4: the only exit code is 1, and the log tells the two states apart:
    while the process runs it holds info entries only; once it exited, its
    last entry is the connection error and all earlier ones are info. *)
Theorem exit_discipline (evs : list Event) :
  match exit_code (after cfg evs) with
  | None => forallb is_info (log (after cfg evs)) = true
  | Some c =>
      c = 1%Z /\
      exists earlier error,
        log (after cfg evs) = earlier ++ [error_entry error] /\
        forallb is_info earlier = true
  end.
Proof.
  induction evs as [|ev evs IH] using rev_ind; [reflexivity|].
  rewrite after_snoc. unfold step.
  destruct (exit_code (after cfg evs)) eqn:Hx; [rewrite Hx; exact IH|].
  destruct ev as [outcome|name].
  - unfold settle. destruct (pending (after cfg evs)); [rewrite Hx; exact IH|].
    destruct outcome as [error|]; cbn.
    + split; [reflexivity|]. eauto.
    + rewrite Hx. rewrite forallb_app, IH. reflexivity.
  - destruct (emit_spec name (after cfg evs)) as (_ & _ & Hl & Hx' & _).
    rewrite Hx', Hx, Hl. exact IH.
Qed.

(** X5: as long as no connect promise is rejected, the process never exits
    and the number of reconnect attempts is exactly the number of emissions
    under the registered name, however emissions and settlements
    interleave. *)
Theorem reconnects_count_triggers (evs : list Event) :
  forallb (fun ev => negb (is_rejection ev)) evs = true ->
  exit_code (after cfg evs) = None /\
  reconnects (after cfg evs) = triggers evs.
Proof.
  intros Hall. split; [apply alive_without_rejection, Hall|]. revert Hall.
  unfold reconnects, triggers.
  induction evs as [|ev evs IH] using rev_ind; [reflexivity|].
  rewrite forallb_app. intros [Hevs Hev]%andb_prop.
  specialize (IH Hevs). rewrite after_snoc, List.filter_app, length_app.
  unfold step. rewrite (alive_without_rejection evs Hevs).
  destruct ev as [outcome|name].
  - cbn. unfold settle. destruct (pending (after cfg evs)); [lia|].
    destruct outcome; cbn; lia.
  - destruct (emit_spec name (after cfg evs)) as (Ha & _).
    rewrite Ha, heard, length_app, length_replicate. cbn.
    pose proof (first_attempt_kept evs).
    destruct (String.eqb name reconnect_event); cbn; lia.
Qed.

(** X6: if nothing is ever emitted under the registered name, the initial
    attempt stays the only one - whatever else is emitted and however the
    attempt ends. *)
Theorem untriggered_single_attempt (evs : list Event) :
  forallb (fun ev => negb (is_trigger ev)) evs = true ->
  attempts (after cfg evs) = [DATABASE_URL cfg].
Proof.
  induction evs as [|ev evs IH] using rev_ind; [reflexivity|].
  rewrite forallb_app. intros [Hevs Hev]%andb_prop.
  specialize (IH Hevs). rewrite after_snoc. unfold step.
  destruct (exit_code (after cfg evs)); [exact IH|].
  destruct ev as [outcome|name].
  - unfold settle. destruct (pending (after cfg evs)); [exact IH|].
    destruct outcome; cbn; exact IH.
  - destruct (emit_spec name (after cfg evs)) as (Ha & _).
    rewrite Ha, heard, IH. cbn in Hev. rewrite andb_true_r in Hev.
    apply negb_true_iff in Hev. rewrite Hev. reflexivity.
Qed.

Lemma setups_S (k : nat) (p : Process) :
  setups cfg (S k) p = setupDatabase cfg (setups cfg k p).
Proof. reflexivity. Qed.

(** X7: the default export is not idempotent.  Called [k] times on a fresh
    process it starts [k] attempts and registers [connect] [k] times, so a
    single emission under the registered name starts [k] more attempts. *)
Theorem setups_accumulate (k : nat) :
  let p := setups cfg k boot in
  attempts p = replicate k (DATABASE_URL cfg) /\
  pending p = k /\
  default [] (listeners p !! reconnect_event) = replicate k ConnectFn /\
  exit_code p = None /\
  attempts (emit cfg reconnect_event p) = replicate (k + k) (DATABASE_URL cfg).
Proof.
  cbn zeta.
  assert (H : attempts (setups cfg k boot) = replicate k (DATABASE_URL cfg) /\
              pending (setups cfg k boot) = k /\
              default [] (listeners (setups cfg k boot) !! reconnect_event)
                = replicate k ConnectFn /\
              exit_code (setups cfg k boot) = None).
  { induction k as [|k (Ha & Hp & Hl & Hx)]; [repeat split|].
    rewrite setups_S. unfold setupDatabase.
    cbn [on connect attempts pending listeners exit_code].
    rewrite lookup_insert_eq. cbn [default].
    rewrite Ha, Hp, Hl, Hx, !replicate_S_end. repeat split. }
  destruct H as (Ha & Hp & Hl & Hx). repeat split; try assumption.
  destruct (emit_spec reconnect_event (setups cfg k boot)) as (Hea & _).
  rewrite Hea, Ha, Hl, length_replicate, replicate_add. reflexivity.
Qed.

End DatabaseInvariants.

Lemma reconnects_count_triggers_witness :
  let p := Database.after (Database.mkConfig "mongodb://127.0.0.1:27017/chatty")
             [Database.Settled None; Database.Emitted Database.reconnect_event;
              Database.Emitted Database.reconnect_event;
              Database.Emitted "disconnected"; Database.Settled None] in
  Database.exit_code p = None /\ Database.reconnects p = 2.
Proof.
  apply (reconnects_count_triggers
           (Database.mkConfig "mongodb://127.0.0.1:27017/chatty")
           [Database.Settled None; Database.Emitted Database.reconnect_event;
            Database.Emitted Database.reconnect_event;
            Database.Emitted "disconnected"; Database.Settled None]).
  reflexivity.
Defined.

Lemma untriggered_single_attempt_witness :
  Database.attempts
    (Database.after (Database.mkConfig "mongodb://127.0.0.1:27017/chatty")
       [Database.Emitted "disconnected";
        Database.Settled (Some (Unclassified "ECONNREFUSED"));
        Database.Emitted "error"])
  = ["mongodb://127.0.0.1:27017/chatty"].
Proof.
  apply (untriggered_single_attempt
           (Database.mkConfig "mongodb://127.0.0.1:27017/chatty")
           [Database.Emitted "disconnected";
            Database.Settled (Some (Unclassified "ECONNREFUSED"));
            Database.Emitted "error"]).
  reflexivity.
Defined.

Lemma blocked_request_reaches_no_handler_witness :
  existsb Server.is_handler_stage
    (Server.ran
       (Server.dispatch Sample.env_body_too_large
          (Server.app_of (Server.start Sample.cfg Sample.env_body_too_large []))
          None (Sample.get "/secret") Server.fresh)) = false.
Proof.
  apply (blocked_request_reaches_no_handler Sample.cfg Sample.env_body_too_large
           (Sample.get "/secret") Server.fresh
           (Server.JsonBody {| Server.extended := None; Server.limit := "50mb" |})).
  - cbn. auto 10.
  - discriminate.
Defined.

Lemma listen_iff_fanout_attached_witness :
  let tr := Server.trace (Server.start Sample.cfg Sample.env []) in
  In (Server.Ready Server.Pub) tr /\ In (Server.Ready Server.Sub) tr /\
  In Server.AdapterInstalled tr /\ In (Server.Listen Server.SERVER_PORT) tr.
Proof.
  destruct (listen_iff_fanout_attached Sample.cfg Sample.env []) as [_ H].
  apply H. reflexivity.
Defined.
